(** * image2plate: the capture-to-overlay pipeline of the Dashboard screen

    Shallow embedding of [src/app/(dashboard)/index.tsx] (component
    [Dashboard]): the state hooks of the pipeline, the handlers
    [pickImage], [sendToBackend], [onLayout], the view conditions of the
    JSX tree and the overlay function [renderDetectionsOverlay].

    Conventions of the embedding.
    - A JS string is the list of its UTF-16 code units.
    - A JS number is an exact rational ([Q]); [NaN] and the infinities are
      not values of the model, and arithmetic is exact.  Numbers are
      compared with [==] ([Qeq]).
    - An [async] function is cut at its [await]s.  The piece between two
      [await]s runs to completion, so it is one function on the state; what
      it hands to the outside (alerts, the [fetch] request, [Image.getSize])
      is returned beside the new state.
    - [console.log] and [console.error] have no effect on the state and are
      left out.

    Beside the pipeline the file embeds the authentication hooks of
    [Dashboard] (module [Auth]), the overlay, colours and percentages of
    the second, typed [Dashboard] (module [TypedDashboard]), and the
    handlers of the screens [Login] and [Signup]. *)

From Stdlib Require Import List Bool Arith NArith ZArith QArith Qround.
From Stdlib Require Import Ascii String DecimalString Lia Lqa.
Import ListNotations.

Local Open Scope Q_scope.

(** ** Strings *)

Definition code_unit := N.
Definition jsstring := list code_unit.

(** A string literal of the source, code unit by code unit. *)
Fixpoint lit (s : string) : jsstring :=
  match s with
  | EmptyString => []
  | String c r => N_of_ascii c :: lit r
  end.

(** ECMAScript [WhiteSpace] and [LineTerminator] code points: what
    [String.prototype.trim] strips. *)
Definition isWhiteSpace (c : code_unit) : bool :=
  existsb (N.eqb c)
    [9; 10; 11; 12; 13; 32; 160; 5760; 8192; 8193; 8194; 8195; 8196; 8197;
     8198; 8199; 8200; 8201; 8202; 8232; 8233; 8239; 8287; 12288; 65279]%N.

Fixpoint trimStart (s : jsstring) : jsstring :=
  match s with
  | [] => []
  | c :: r => if isWhiteSpace c then trimStart r else s
  end.

Definition trimEnd (s : jsstring) : jsstring := rev (trimStart (rev s)).

Definition trim (s : jsstring) : jsstring := trimEnd (trimStart s).

(** [!s] for a string: only the empty string is falsy. *)
Definition str_falsy (s : jsstring) : bool :=
  match s with [] => true | _ :: _ => false end.

(** [!u] for [string | null]: [null] and the empty string are falsy. *)
Definition uri_falsy (u : option jsstring) : bool :=
  match u with None => true | Some s => str_falsy s end.

(** [!n] for a number: zero is falsy. *)
Definition num_falsy (n : Q) : bool := Qeq_bool n 0.

(** [a || b] on strings where [a] may be [undefined]. *)
Definition str_or (a : option jsstring) (b : jsstring) : jsstring :=
  match a with
  | Some s => if str_falsy s then b else s
  | None => b
  end.

(** ** Data *)

(** [det.bbox], in the pixel space of the original image. *)
Record BBox := mkBBox { x1 : Q; y1 : Q; x2 : Q; y2 : Q }.

(** One entry of [data.detections].  The source types the array as
    [any[]]; the model takes the entries to have the shape the overlay
    reads: [class], [confidence], [bbox]. *)
Record Detection := mkDetection {
  class : jsstring;
  confidence : Q;
  bbox : BBox
}.

(** [e.nativeEvent.layout] *)
Module Layout.
Record t := mk { x : Q; y : Q; width : Q; height : Q }.
End Layout.

(** The style [{ left, top, width, height }] of one overlay [View]. *)
Module ScreenBox.
Record t := mk { left : Q; top : Q; width : Q; height : Q }.

Definition eq (a b : t) : Prop :=
  left a == left b /\ top a == top b /\
  width a == width b /\ height a == height b.
End ScreenBox.

(** The state hooks of [Dashboard] that the pipeline reads or writes
    ([displayName] and [isLoggedIn] belong to the authentication
    collaborator and are touched by none of the functions below). *)
Record State := mkState {
  imageUri : option jsstring;
  backendIP : jsstring;
  detections : list Detection;
  loading : bool;
  originalWidth : Q;
  originalHeight : Q;
  renderedWidth : Q
}.

(** The initial values given to [useState]. *)
Definition initial : State :=
  {| imageUri := None; backendIP := []; detections := []; loading := false;
     originalWidth := 0; originalHeight := 0; renderedWidth := 0 |}.

(** *** The setters returned by [useState] *)

Definition setImageUri (u : option jsstring) (s : State) : State :=
  {| imageUri := u; backendIP := backendIP s; detections := detections s;
     loading := loading s; originalWidth := originalWidth s;
     originalHeight := originalHeight s; renderedWidth := renderedWidth s |}.

Definition setBackendIP (ip : jsstring) (s : State) : State :=
  {| imageUri := imageUri s; backendIP := ip; detections := detections s;
     loading := loading s; originalWidth := originalWidth s;
     originalHeight := originalHeight s; renderedWidth := renderedWidth s |}.

Definition setDetections (d : list Detection) (s : State) : State :=
  {| imageUri := imageUri s; backendIP := backendIP s; detections := d;
     loading := loading s; originalWidth := originalWidth s;
     originalHeight := originalHeight s; renderedWidth := renderedWidth s |}.

Definition setLoading (b : bool) (s : State) : State :=
  {| imageUri := imageUri s; backendIP := backendIP s;
     detections := detections s; loading := b;
     originalWidth := originalWidth s; originalHeight := originalHeight s;
     renderedWidth := renderedWidth s |}.

Definition setOriginalWidth (w : Q) (s : State) : State :=
  {| imageUri := imageUri s; backendIP := backendIP s;
     detections := detections s; loading := loading s;
     originalWidth := w; originalHeight := originalHeight s;
     renderedWidth := renderedWidth s |}.

Definition setOriginalHeight (h : Q) (s : State) : State :=
  {| imageUri := imageUri s; backendIP := backendIP s;
     detections := detections s; loading := loading s;
     originalWidth := originalWidth s; originalHeight := h;
     renderedWidth := renderedWidth s |}.

Definition setRenderedWidth (w : Q) (s : State) : State :=
  {| imageUri := imageUri s; backendIP := backendIP s;
     detections := detections s; loading := loading s;
     originalWidth := originalWidth s; originalHeight := originalHeight s;
     renderedWidth := w |}.

(** ** What a handler hands to the outside *)

(** The object appended to the [FormData] under the field name [file]. *)
Record FormFile := mkFormFile {
  file_uri : jsstring;
  file_name : jsstring;
  file_type : jsstring
}.

(** One call of [fetch]: the URL, the method, the [Content-Type] header and
    the one field of the form. *)
Record Request := mkRequest {
  url : jsstring;
  method : jsstring;
  contentType : jsstring;
  body_field : jsstring;
  body_file : FormFile
}.

Inductive Effect :=
| Alert (title message : jsstring)   (* Alert.alert(title, message) *)
| Fetch (r : Request)                (* fetch(url, init) *)
| GetSize (uri : jsstring).          (* Image.getSize(uri, ok, err) *)

(** A run-to-completion piece of a handler: the new state and the effects
    it issued, in order. *)
Definition Cmd := State -> State * list Effect.

Definition skip : Cmd := fun s => (s, []).
Definition upd (f : State -> State) : Cmd := fun s => (f s, []).
Definition emit (e : Effect) : Cmd := fun s => (s, [e]).
Definition seq (c1 c2 : Cmd) : Cmd :=
  fun s => let (s1, e1) := c1 s in
           let (s2, e2) := c2 s1 in (s2, e1 ++ e2).

Declare Scope cmd_scope.
Delimit Scope cmd_scope with cmd.
Bind Scope cmd_scope with Cmd.
Notation "c1 ;; c2" := (seq c1 c2)
  (at level 61, right associativity) : cmd_scope.

Definition alert (title message : string) : Cmd :=
  emit (Alert (lit title) (lit message)).

(** ** Handlers *)

(** How the two [await]s of [pickImage] resolve. *)
Inductive PickOutcome :=
| PermissionNotGranted          (* status !== 'granted' *)
| Canceled                      (* result.canceled *)
| Captured (uri : jsstring).    (* result.assets[0].uri *)

(** [pickImage], after its [await]s.  The state is written only in the
    last piece, under [if (!result.canceled)]. *)
Definition pickImage (o : PickOutcome) : Cmd :=
  match o with
  | PermissionNotGranted =>
      alert "Permission Denied" "Camera access is required to take pictures."
  | Canceled => skip
  | Captured uri =>
      (upd (setImageUri (Some uri)) ;;
       upd (setDetections []) ;;
       emit (GetSize uri))%cmd
  end.

(** The success callback given to [Image.getSize]. *)
Definition getSize_success (width height : Q) : Cmd :=
  (upd (setOriginalWidth width) ;; upd (setOriginalHeight height))%cmd.

(** The error callback given to [Image.getSize]: it only logs. *)
Definition getSize_failure : Cmd := skip.

(** The [onLayout] handler of both [imageContainer] views. *)
Definition onLayout (e : Layout.t) : Cmd :=
  upd (setRenderedWidth (Layout.width e)).

Definition detect_url (ip : jsstring) : jsstring :=
  lit "http://" ++ ip ++ lit ":8000/detect".

Definition detect_request (ip uri : jsstring) : Request :=
  {| url := detect_url ip;
     method := lit "POST";
     contentType := lit "multipart/form-data";
     body_field := lit "file";
     body_file := {| file_uri := uri; file_name := lit "image.jpg";
                     file_type := lit "image/jpeg" |} |}.

(** [sendToBackend] up to its first [await]: the two guards, then
    [setLoading(true)] and the call of [fetch]. *)
Definition sendToBackend : Cmd := fun s =>
  if str_falsy (trim (backendIP s)) then
    alert "Missing IP" "Please enter the backend server IP." s
  else
    match imageUri s with
    | None => alert "No Image" "Please capture an image first." s
    | Some uri =>
        if str_falsy uri then
          alert "No Image" "Please capture an image first." s
        else
          (upd (setLoading true) ;;
           emit (Fetch (detect_request (backendIP s) uri)))%cmd s
    end.

(** How [await fetch(...)] and [await response.json()] resolve.  A body
    that parses is taken to have the shape of the upload response: an array
    under [detections] when [response.ok], an optional string under
    [error] otherwise.  A body that parses to [null] makes [data.detections]
    or [data.error] throw inside the [try]; the [catch] block then runs as
    it does for [InvalidJson]. *)
Inductive FetchOutcome :=
| NetworkFailure                         (* fetch rejects *)
| InvalidJson (ok : bool)                (* response.json() rejects *)
| Ok2xx (dets : list Detection)          (* response.ok, data.detections *)
| NotOk (error : option jsstring).       (* !response.ok, data.error *)

(** The rest of [sendToBackend]: the [try] body after the [await]s, the
    [catch] block, and the [finally] block last. *)
Definition sendToBackend_resume (o : FetchOutcome) : Cmd :=
  ((match o with
    | Ok2xx dets => upd (setDetections dets)
    | NotOk error =>
        emit (Alert (lit "Error")
                    (str_or error (lit "Failed to process image.")))
    | NetworkFailure | InvalidJson _ =>
        alert "Error" "Could not connect to backend."
    end) ;;
   upd (setLoading false))%cmd.

(** ** The view *)

(** [imageUri && detections.length === 0 && (...)] *)
Definition showsPreview (s : State) : bool :=
  negb (uri_falsy (imageUri s)) && (List.length (detections s) =? 0)%nat.

(** [imageUri && detections.length > 0 && (...)] *)
Definition showsProcessed (s : State) : bool :=
  negb (uri_falsy (imageUri s)) && (0 <? List.length (detections s))%nat.

(** [processButton] is part of the preview and carries
    [disabled={loading}]: a press reaches [onPress] only when the button is
    on screen and enabled. *)
Definition press_processButton : Cmd := fun s =>
  if showsPreview s && negb (loading s) then sendToBackend s else skip s.

(** [renderDetectionsOverlay]: [null] is [None]; otherwise the style of
    each box, in the order of [detections] (the [key] is the position). *)
Definition renderDetectionsOverlay (s : State) : option (list ScreenBox.t) :=
  if num_falsy (renderedWidth s) || num_falsy (originalWidth s) then None
  else
    let scale := renderedWidth s / originalWidth s in
    Some (map (fun det =>
                 let b := bbox det in
                 {| ScreenBox.left := x1 b * scale;
                    ScreenBox.top := y1 b * scale;
                    ScreenBox.width := (x2 b - x1 b) * scale;
                    ScreenBox.height := (y2 b - y1 b) * scale |})
              (detections s)).

(** ** The screen and its environment *)

(** The session together with the uploads that have not settled yet and
    everything the handlers have issued so far. *)
Record World := mkWorld {
  session : State;
  inflight : list Request;
  outbox : list Effect
}.

Definition world0 : World :=
  {| session := initial; inflight := []; outbox := [] |}.

Inductive Event :=
| ChangeText (text : jsstring)          (* TextInput onChangeText *)
| Pick (o : PickOutcome)                (* the card, pickImage *)
| SizeResolved (width height : Q)       (* Image.getSize calls back *)
| SizeFailed
| LayoutChanged (e : Layout.t)          (* onLayout *)
| PressProcess                          (* a press on processButton *)
| Settle (n : nat) (o : FetchOutcome).  (* upload n of inflight settles *)

Fixpoint fetches (l : list Effect) : list Request :=
  match l with
  | [] => []
  | Fetch r :: l' => r :: fetches l'
  | _ :: l' => fetches l'
  end.

Fixpoint drop_nth {A} (n : nat) (l : list A) : list A :=
  match n, l with
  | _, [] => []
  | O, _ :: l' => l'
  | S n', a :: l' => a :: drop_nth n' l'
  end.

Definition handler (ev : Event) (w : World) : Cmd :=
  match ev with
  | ChangeText text => upd (setBackendIP text)
  | Pick o => pickImage o
  | SizeResolved width height => getSize_success width height
  | SizeFailed => getSize_failure
  | LayoutChanged e => onLayout e
  | PressProcess => press_processButton
  | Settle n o =>
      match nth_error (inflight w) n with
      | Some _ => sendToBackend_resume o
      | None => skip
      end
  end.

Definition step (w : World) (ev : Event) : World :=
  let (s', effs) := handler ev w (session w) in
  {| session := s';
     inflight := match ev with
                 | Settle n _ => drop_nth n (inflight w)
                 | _ => inflight w
                 end ++ fetches effs;
     outbox := outbox w ++ effs |}.

Definition run (evs : list Event) (w : World) : World :=
  fold_left step evs w.

(** The handle an upload was issued for. *)
Definition issued_for (r : Request) : jsstring := file_uri (body_file r).

(** The state a piece of a handler leaves. *)
Definition exec (c : Cmd) (s : State) : State := fst (c s).

(** The session once [Image.getSize] has reported the natural size
    [nw] x [nh] and [onLayout] has measured [rendered]. *)
Definition measured (nw nh : Q) (rendered : Layout.t) (s : State) : State :=
  exec (onLayout rendered) (exec (getSize_success nw nh) s).

(** The style the overlay gives to one detection under a given scale. *)
Definition scaled (scale : Q) (det : Detection) : ScreenBox.t :=
  {| ScreenBox.left := x1 (bbox det) * scale;
     ScreenBox.top := y1 (bbox det) * scale;
     ScreenBox.width := (x2 (bbox det) - x1 (bbox det)) * scale;
     ScreenBox.height := (y2 (bbox det) - y1 (bbox det)) * scale |}.

(** ** The specification's operations, in its own words

    These two definitions follow sections 4.4 and 4.6 of the specification,
    not the source; the source is compared with them below. *)
Module Spec.

Definition Qlt_bool (a b : Q) : bool := negb (Qle_bool b a).

(** 4.6: two independent scales, [unavailable] unless all four
    dimensions are strictly positive. *)
Definition mapToScreen (det : Detection) (nw nh : Q) (rendered : Layout.t)
  : option ScreenBox.t :=
  if Qlt_bool 0 nw && Qlt_bool 0 nh &&
     Qlt_bool 0 (Layout.width rendered) &&
     Qlt_bool 0 (Layout.height rendered)
  then
    let scaleX := Layout.width rendered / nw in
    let scaleY := Layout.height rendered / nh in
    Some {| ScreenBox.left := x1 (bbox det) * scaleX;
            ScreenBox.top := y1 (bbox det) * scaleY;
            ScreenBox.width := (x2 (bbox det) - x1 (bbox det)) * scaleX;
            ScreenBox.height := (y2 (bbox det) - y1 (bbox det)) * scaleY |}
  else None.

(** 4.4: an entry is kept when its confidence lies in [0,1] and its box
    is not inverted. *)
Definition valid (d : Detection) : bool :=
  Qle_bool 0 (confidence d) && Qle_bool (confidence d) 1 &&
  Qlt_bool (x1 (bbox d)) (x2 (bbox d)) &&
  Qlt_bool (y1 (bbox d)) (y2 (bbox d)).

Definition normalize (raw : list Detection) : list Detection :=
  filter valid raw.

End Spec.

(** ** Numbers and strings of the typed screen *)

(** [a < b] on numbers. *)
Definition num_lt (a b : Q) : bool := negb (Qle_bool b a).

(** [Math.round]: the nearest integer, a tie going up. *)
Definition Math_round (q : Q) : Z := Qfloor (q + (1 # 2)).

(** [s.slice(i, j)] for indices [0 <= i <= j]. *)
Definition slice (i j : nat) (s : jsstring) : jsstring :=
  firstn (j - i) (skipn i s).

(** The value of a code unit as a digit in base 16. *)
Definition hexDigit (c : code_unit) : option N :=
  (if (48 <=? c) && (c <=? 57) then Some (c - 48)
   else if (65 <=? c) && (c <=? 70) then Some (c - 55)
   else if (97 <=? c) && (c <=? 102) then Some (c - 87)
   else None)%N.

(** The longest prefix of digits, read in base 16; [None] when there is no
    digit. *)
Fixpoint hexDigits (acc : option N) (s : jsstring) : option N :=
  match s with
  | [] => acc
  | c :: r =>
      match hexDigit c with
      | Some d =>
          hexDigits
            (Some (16 * match acc with Some a => a | None => 0 end + d)%N) r
      | None => acc
      end
  end.

(** [parseInt(s, 16)]: leading white space, a sign and a [0x] prefix are
    skipped, then the digits are read; [None] is [NaN]. *)
Definition parseInt16 (s : jsstring) : option Z :=
  let s1 := trimStart s in
  let '(negative, s2) :=
    match s1 with
    | c :: r => if (c =? 45)%N then (true, r)
                else if (c =? 43)%N then (false, r) else (false, s1)
    | [] => (false, s1)
    end in
  let s3 :=
    match s2 with
    | c :: d :: r =>
        if ((c =? 48) && ((d =? 120) || (d =? 88)))%N then r else s2
    | _ => s2
    end in
  match hexDigits None s3 with
  | Some n => Some (if negative : bool then (- Z.of_N n)%Z else Z.of_N n)
  | None => None
  end.

(** An integer (or [NaN]) inside a template literal. *)
Definition showInt (n : option Z) : jsstring :=
  match n with
  | Some z => lit (NilZero.string_of_int (Z.to_int z))
  | None => lit "NaN"
  end.

(** ** The second Dashboard of the repository

    The sources hold a second, typed version of the same screen: the
    component [Dashboard] with [interface RenderedImageSize], among the
    documents of [src/app/(frontpage)/_layout.tsx].  Its upload and capture
    handlers are the ones above; it differs in the layout, where it stores
    the measured width and height, and in the overlay, which scales the two
    axes apart.  Only that part is embedded here. *)
Module TypedDashboard.

Record RenderedImageSize := mkSize { width : Q; height : Q }.

Record State := mkState {
  detections : list Detection;
  originalWidth : Q;
  originalHeight : Q;
  renderedImageSize : RenderedImageSize
}.

(** [onImageLayout]: [setRenderedImageSize({ width, height })]. *)
Definition onImageLayout (e : Layout.t) (s : State) : State :=
  {| detections := detections s;
     originalWidth := originalWidth s;
     originalHeight := originalHeight s;
     renderedImageSize :=
       {| width := Layout.width e; height := Layout.height e |} |}.

(** [renderDetectionsOverlay] of the typed screen (the border colour and
    the label are left out). *)
Definition renderDetectionsOverlay (s : State) : option (list ScreenBox.t) :=
  if num_falsy (width (renderedImageSize s)) ||
     num_falsy (originalWidth s) || num_falsy (originalHeight s)
  then None
  else
    let scaleWidth := width (renderedImageSize s) / originalWidth s in
    let scaleHeight := height (renderedImageSize s) / originalHeight s in
    Some (map (fun det =>
                 let b := bbox det in
                 {| ScreenBox.left := x1 b * scaleWidth;
                    ScreenBox.top := y1 b * scaleHeight;
                    ScreenBox.width := (x2 b - x1 b) * scaleWidth;
                    ScreenBox.height := (y2 b - y1 b) * scaleHeight |})
              (detections s)).

(** [confidencePercent], computed for the label of a box and for the
    line of the results list. *)
Definition confidencePercent (det : Detection) : Z :=
  Math_round (confidence det * 100).

(** The palette of [getBoundingBoxColor]. *)
Definition colors : list jsstring :=
  [lit "#FF0000"; lit "#00FF00"; lit "#0000FF";
   lit "#FF00FF"; lit "#FFFF00"; lit "#00FFFF"].

(** The default value of the parameter [opacity]. *)
Definition defaultOpacity : Q := 2 # 10.

Section Colour.

(** How a number is written inside a template literal.  The three colour
    components are integers and are written in decimal ([showInt]); the
    opacity can be any number, and its text is left to this parameter. *)
Variable numberToString : Q -> jsstring.

(** [getBoundingBoxColor(index, opacity)], for the index of a detection in
    the array. *)
Definition getBoundingBoxColor (index : nat) (opacity : Q) : jsstring :=
  let baseColor := nth (index mod List.length colors) colors [] in
  if num_lt opacity 1 then
    let r := parseInt16 (slice 1 3 baseColor) in
    let g := parseInt16 (slice 3 5 baseColor) in
    let b := parseInt16 (slice 5 7 baseColor) in
    lit "rgba(" ++ showInt r ++ lit ", " ++ showInt g ++ lit ", " ++
    showInt b ++ lit ", " ++ numberToString opacity ++ lit ")"
  else baseColor.

End Colour.

End TypedDashboard.

(** ** Authentication: the rest of [Dashboard] and the screens it shows *)

(** [a === b] on strings. *)
Definition str_eqb (a b : jsstring) : bool :=
  if list_eq_dec N.eq_dec a b then true else false.

(** [a || b] for [string | null] operands. *)
Definition or_else (a b : option jsstring) : option jsstring :=
  if uri_falsy a then b else a.

(** The error a rejected Firebase call is caught with: [error.code] and
    [error.message], each possibly [undefined]. *)
Record FirebaseError := mkError {
  code : option jsstring;
  message : option jsstring
}.

(** [error.code === c] for a string literal [c]. *)
Definition code_is (e : FirebaseError) (c : string) : bool :=
  match code e with
  | Some s => str_eqb s (lit c)
  | None => false
  end.

(** The argument of [Toast.show]. *)
Record ToastParams := mkToast {
  toast_type : jsstring;
  text1 : jsstring;
  text2 : jsstring;
  position : jsstring;
  visibilityTime : N;
  autoHide : bool
}.

(** What the authentication screens hand to the outside. *)
Inductive AuthEffect :=
| ShowToast (t : ToastParams)
| SignIn (email password : jsstring)       (* signInWithEmailAndPassword *)
| CreateUser (email password : jsstring)   (* createUserWithEmailAndPassword *)
| UpdateProfile (displayName : jsstring)   (* updateProfile(user, {displayName}) *)
| SendEmailVerification
| RouterReplace (href : jsstring)          (* router.replace(href) *)
| ReplaceAfter (ms : N) (href : jsstring). (* setTimeout(() => router.replace(href), ms) *)

Definition toast (type title text : string) (ms : N) : AuthEffect :=
  ShowToast {| toast_type := lit type; text1 := lit title; text2 := lit text;
               position := lit "top"; visibilityTime := ms;
               autoHide := true |}.

(** The hooks [displayName] and [isLoggedIn] of [Dashboard], its effect on
    mount, [handleLogout] and the choice between the front page and the
    dashboard. *)
Module Auth.

(** [auth.currentUser], as far as the screen reads it. *)
Record User := mkUser {
  user_displayName : option jsstring;
  user_email : option jsstring
}.

Record State := mkState {
  displayName : jsstring;
  isLoggedIn : bool
}.

(** The initial values given to [useState]. *)
Definition initial : State := {| displayName := []; isLoggedIn := true |}.

(** The callback of [useEffect(..., [])]. *)
Definition onMount (currentUser : option User) (a : State) : State :=
  match currentUser with
  | None => {| displayName := displayName a; isLoggedIn := false |}
  | Some user =>
      {| displayName :=
           str_or (or_else (user_displayName user) (user_email user))
                  (lit "User");
         isLoggedIn := true |}
  end.

(** [handleLogout], after [await signOut(auth)] resolved ([true]) or
    rejected ([false]). *)
Definition handleLogout (resolved : bool) (a : State) : State * list Effect :=
  if resolved then ({| displayName := displayName a; isLoggedIn := false |}, [])
  else (a, [Alert (lit "Error") (lit "Failed to log out. Please try again.")]).

End Auth.

(** The screen [Login] of [src/app/(frontpage)/index.tsx], which
    [Dashboard] renders as [Frontpage] when nobody is logged in. *)
Module Login.

Record State := mkState {
  email : jsstring;
  password : jsstring;
  showPassword : bool;
  isLoading : bool
}.

Definition setIsLoading (b : bool) (s : State) : State :=
  {| email := email s; password := password s;
     showPassword := showPassword s; isLoading := b |}.

(** [handleLogin] up to its [await]. *)
Definition handleLogin (s : State) : State * list AuthEffect :=
  if str_falsy (email s) || str_falsy (password s) then
    (s, [toast "error" "Login Error" "Please fill in all fields." 3000])
  else
    (setIsLoading true s, [SignIn (email s) (password s)]).

(** The [message] of the [catch] block. *)
Definition errorMessage (error : FirebaseError) : jsstring :=
  let message :=
    str_or (message error) (lit "Login failed. Please try again.") in
  if code_is error "auth/invalid-email" then lit "Invalid email address."
  else if code_is error "auth/user-not-found" then lit "User not found."
  else if code_is error "auth/wrong-password" then lit "Incorrect password."
  else message.

(** The rest of [handleLogin]: [None] when the sign-in resolved, the error
    when it was rejected; the [finally] block last. *)
Definition handleLogin_resume (rejected : option FirebaseError) (s : State)
  : State * list AuthEffect :=
  match rejected with
  | None => (setIsLoading false s, [RouterReplace (lit "/(dashboard)")])
  | Some error =>
      (setIsLoading false s,
       [ShowToast {| toast_type := lit "error"; text1 := lit "Login Error";
                     text2 := errorMessage error; position := lit "top";
                     visibilityTime := 3000; autoHide := true |}])
  end.

End Login.

(** The screen [Signup] of [src/app/(frontpage)/signup.tsx]. *)
Module Signup.

Record State := mkState {
  name : jsstring;
  email : jsstring;
  password : jsstring;
  confirmPassword : jsstring;
  showPassword : bool;
  showConfirmPassword : bool;
  isLoading : bool;
  error : jsstring
}.

Definition setError (e : jsstring) (s : State) : State :=
  {| name := name s; email := email s; password := password s;
     confirmPassword := confirmPassword s; showPassword := showPassword s;
     showConfirmPassword := showConfirmPassword s; isLoading := isLoading s;
     error := e |}.

Definition setIsLoading (b : bool) (s : State) : State :=
  {| name := name s; email := email s; password := password s;
     confirmPassword := confirmPassword s; showPassword := showPassword s;
     showConfirmPassword := showConfirmPassword s; isLoading := b;
     error := error s |}.

(** [handleSignup] up to its first [await]: the error is cleared, then the
    three checks in their order. *)
Definition handleSignup (s : State) : State * list AuthEffect :=
  let s0 := setError [] s in
  if str_falsy (name s) || str_falsy (email s) ||
     str_falsy (password s) || str_falsy (confirmPassword s) then
    (setError (lit "Please fill in all fields") s0, [])
  else if negb (str_eqb (password s) (confirmPassword s)) then
    (setError (lit "Passwords do not match") s0, [])
  else if (List.length (password s) <? 6)%nat then
    (setError (lit "Password should be at least 6 characters") s0, [])
  else
    (setIsLoading true s0, [CreateUser (email s) (password s)]).

(** How the three [await]s of the [try] block went. *)
Inductive TryOutcome :=
| CreateRejected (e : FirebaseError)
| ProfileRejected (e : FirebaseError)
| VerificationRejected (e : FirebaseError)
| AllResolved.

(** The text [setError] is called with in the [catch] block. *)
Definition errorMessage (e : FirebaseError) : jsstring :=
  if code_is e "auth/email-already-in-use" then
    lit "That email address is already in use!"
  else if code_is e "auth/invalid-email" then
    lit "That email address is invalid!"
  else if code_is e "auth/weak-password" then
    lit "The password is too weak!"
  else str_or (message e) (lit "An unknown error occurred").

(** The calls made after the account was created, as far as the [try]
    block got; [name0] is the name the handler was called with. *)
Definition calls (name0 : jsstring) (o : TryOutcome) : list AuthEffect :=
  match o with
  | CreateRejected _ => []
  | ProfileRejected _ => [UpdateProfile name0]
  | VerificationRejected _ => [UpdateProfile name0; SendEmailVerification]
  | AllResolved =>
      [UpdateProfile name0; SendEmailVerification;
       toast "success" "Email Sent!"
             "Please check your email for verification." 4000;
       ReplaceAfter 4000 (lit "/")]
  end.

(** The rest of [handleSignup]: the [try] block after the first [await],
    the [catch] block, and the [finally] block last. *)
Definition handleSignup_resume (name0 : jsstring) (o : TryOutcome) (s : State)
  : State * list AuthEffect :=
  match o with
  | CreateRejected e | ProfileRejected e | VerificationRejected e =>
      (setIsLoading false (setError (errorMessage e) s), calls name0 o)
  | AllResolved => (setIsLoading false s, calls name0 o)
  end.

End Signup.

(** ** Sample data *)

Definition apple : Detection :=
  {| class := lit "apple"; confidence := 92 # 100;
     bbox := {| x1 := 10; y1 := 10; x2 := 50; y2 := 60 |} |}.

(** An entry with [confidence: 1.5]. *)
Definition pear : Detection :=
  {| class := lit "pear"; confidence := 15 # 10;
     bbox := {| x1 := 100; y1 := 100; x2 := 300; y2 := 300 |} |}.

Definition photoA : jsstring := lit "file:///cache/a.jpg".
Definition photoB : jsstring := lit "file:///cache/b.jpg".
Definition host : jsstring := lit "192.168.1.20".

(** The box the preview occupies on a 500 point wide screen: the image
    style fixes the height to 250. *)
Definition box500 : Layout.t := Layout.mk 0 0 500 250.

(** ** Derived notions used in the statements *)

(** A string [trim] empties: nothing but white space. *)
Definition blank (s : jsstring) : bool := forallb isWhiteSpace s.

Definition missingIP : Effect :=
  Alert (lit "Missing IP") (lit "Please enter the backend server IP.").

Definition noImage : Effect :=
  Alert (lit "No Image") (lit "Please capture an image first.").

(** An outcome other than a parsed 2xx response. *)
Definition failed (o : FetchOutcome) : bool :=
  match o with Ok2xx _ => false | _ => true end.


(** The screen after the host is typed, photo A is taken and the send
    button is pressed: the upload of A is in flight. *)
Definition uploadingA : World :=
  run [ChangeText host; Pick (Captured photoA); PressProcess] world0.

(** Photo B is taken while the upload of A is in flight. *)
Definition replacedByB : World := step uploadingA (Pick (Captured photoB)).

(** [loading] tells whether an upload is in flight, and there is never
    more than one. *)
Definition one_upload (w : World) : Prop :=
  (loading (session w) = true /\ exists r, inflight w = [r]) \/
  (loading (session w) = false /\ inflight w = []).

(** ** Notions for the properties of the whole screen *)

(** A request as [sendToBackend] builds it, for a host that is not blank
    and a URI that is not empty. *)
Definition well_formed (r : Request) : Prop :=
  exists ip uri, r = detect_request ip uri /\ blank ip = false /\ uri <> [].

Definition is_press (ev : Event) : bool :=
  match ev with PressProcess => true | _ => false end.

(** The presses on the send button among the events. *)
Definition presses (evs : list Event) : nat :=
  List.length (filter is_press evs).

(** The events whose handlers call [setDetections]. *)
Definition writes_detections (ev : Event) : bool :=
  match ev with
  | Pick (Captured _) | Settle _ (Ok2xx _) => true
  | _ => false
  end.

(** The events whose handlers call [setImageUri]. *)
Definition writes_imageUri (ev : Event) : bool :=
  match ev with Pick (Captured _) => true | _ => false end.

(** The events whose handlers call [setOriginalWidth] and
    [setOriginalHeight]. *)
Definition writes_originalSize (ev : Event) : bool :=
  match ev with SizeResolved _ _ => true | _ => false end.

(** The events whose handlers call [setRenderedWidth]. *)
Definition writes_renderedWidth (ev : Event) : bool :=
  match ev with LayoutChanged _ => true | _ => false end.



(** ** A 2xx body without a detections array *)






(** ** What [Dashboard] returns *)



(** * Properties *)

(** ** Basic facts *)

Lemma num_falsy_true (n : Q) : num_falsy n = true <-> n == 0.
Proof. unfold num_falsy. apply Qeq_bool_iff. Qed.

Lemma num_falsy_false (n : Q) : num_falsy n = false <-> ~ n == 0.
Proof.
  unfold num_falsy. split.
  - apply Qeq_bool_neq.
  - intros H. destruct (Qeq_bool n 0) eqn:E; [|reflexivity].
    apply Qeq_bool_iff in E. contradiction.
Qed.

Lemma measured_renderedWidth nw nh e s :
  renderedWidth (measured nw nh e s) = Layout.width e.
Proof. reflexivity. Qed.

Lemma measured_originalWidth nw nh e s :
  originalWidth (measured nw nh e s) = nw.
Proof. reflexivity. Qed.

(** The overlay in closed form: [null] exactly when one of the two widths
    is zero, otherwise every detection under the one scale. *)
Lemma overlay_some (s : State) :
  ~ renderedWidth s == 0 -> ~ originalWidth s == 0 ->
  renderDetectionsOverlay s =
  Some (map (scaled (renderedWidth s / originalWidth s)) (detections s)).
Proof.
  intros Hr Ho. unfold renderDetectionsOverlay.
  apply num_falsy_false in Hr. apply num_falsy_false in Ho.
  rewrite Hr, Ho. reflexivity.
Qed.

Lemma overlay_none (s : State) :
  renderedWidth s == 0 \/ originalWidth s == 0 ->
  renderDetectionsOverlay s = None.
Proof.
  intros [H | H]; apply num_falsy_true in H;
    unfold renderDetectionsOverlay; rewrite H;
    [reflexivity | now rewrite orb_true_r].
Qed.

Lemma Qpos_nonzero (q : Q) : 0 < q -> ~ q == 0.
Proof. intros H E. rewrite E in H. exact (Qlt_irrefl 0 H). Qed.

(** Passes the guard of the overlay in a [measured] session whose two
    widths are known to be positive. *)
Ltac pass_guard :=
  rewrite overlay_some;
  [ | rewrite measured_renderedWidth; now apply Qpos_nonzero
    | rewrite measured_originalWidth; now apply Qpos_nonzero ].

(** ** Coordinate mapping *)

(** C1, as amended.  With strictly positive natural and rendered sizes the
    overlay computes ONE scale, rendered.width / natural.width, and gives
    every detection left = x1*scale, top = y1*scale,
    width = (x2-x1)*scale, height = (y2-y1)*scale; neither height enters
    the result. *)
Theorem overlay_single_scale (s : State) (nw nh : Q) (rendered : Layout.t) :
  0 < nw -> 0 < nh ->
  0 < Layout.width rendered -> 0 < Layout.height rendered ->
  renderDetectionsOverlay (measured nw nh rendered s) =
  Some (map (fun det =>
               let scale := Layout.width rendered / nw in
               {| ScreenBox.left := x1 (bbox det) * scale;
                  ScreenBox.top := y1 (bbox det) * scale;
                  ScreenBox.width := (x2 (bbox det) - x1 (bbox det)) * scale;
                  ScreenBox.height := (y2 (bbox det) - y1 (bbox det)) * scale |})
            (detections s)).
Proof.
  intros Hnw _ Hrw _.
  pass_guard. reflexivity.
Qed.

Lemma overlay_single_scale_witness :
  renderDetectionsOverlay
    (measured 1000 800 box500 (setDetections [apple] initial)) =
  Some [ {| ScreenBox.left := 10 * (500 / 1000);
            ScreenBox.top := 10 * (500 / 1000);
            ScreenBox.width := (50 - 10) * (500 / 1000);
            ScreenBox.height := (60 - 10) * (500 / 1000) |} ].
Proof.
  apply (overlay_single_scale (setDetections [apple] initial) 1000 800 box500);
    reflexivity.
Defined.

(** C1 fails as stated: for the natural size 1000 x 800 and the rendered
    size 500 x 250 the specification puts the top of [apple]'s box at
    10 * (250/800) = 3.125, the overlay puts it at 10 * (500/1000) = 5. *)
Lemma overlay_two_scales_counterexample :
  exists b b',
    renderDetectionsOverlay
      (measured 1000 800 box500 (setDetections [apple] initial)) = Some [b] /\
    Spec.mapToScreen apple 1000 800 box500 = Some b' /\
    ScreenBox.top b == 5 /\ ScreenBox.top b' == 3125 # 1000 /\
    ~ ScreenBox.eq b b'.
Proof.
  eexists. eexists. split; [reflexivity|]. split; [reflexivity|].
  split; [reflexivity|]. split; [reflexivity|].
  intros (_ & Htop & _). revert Htop. cbv. discriminate.
Qed.




(** C7, as amended.  The overlay is [null] ("unavailable") exactly when
    natural.width or rendered.width is zero; the heights are not looked at.
    Whenever boxes are produced the only divisor, [originalWidth], is not
    zero. *)
Theorem overlay_unavailable (s : State) (nw nh : Q) (rendered : Layout.t) :
  (renderDetectionsOverlay (measured nw nh rendered s) = None <->
   nw == 0 \/ Layout.width rendered == 0) /\
  (forall boxes,
     renderDetectionsOverlay s = Some boxes -> ~ originalWidth s == 0).
Proof.
  split; [split|].
  - intros H.
    destruct (Qeq_dec nw 0) as [E | Ho]; [now left|].
    destruct (Qeq_dec (Layout.width rendered) 0) as [E | Hr]; [now right|].
    rewrite overlay_some in H; [discriminate | exact Hr | exact Ho].
  - intros H. apply overlay_none.
    rewrite measured_renderedWidth, measured_originalWidth. tauto.
  - intros boxes H E.
    rewrite overlay_none in H; [discriminate | now right].
Qed.

Lemma overlay_unavailable_witness :
  ~ originalWidth (measured 1000 800 box500 (setDetections [apple] initial))
    == 0.
Proof.
  refine (proj2 (overlay_unavailable
                   (measured 1000 800 box500 (setDetections [apple] initial))
                   1000 800 box500) _ _).
  reflexivity.
Defined.

(** C7 fails as stated: with rendered.height = 0 (natural 1000 x 800,
    rendered 500 x 0) the specification's mapper is unavailable, the
    overlay still draws the box. *)
Lemma overlay_unavailable_counterexample :
  let rendered := Layout.mk 0 0 500 0 in
  Spec.mapToScreen apple 1000 800 rendered = None /\
  renderDetectionsOverlay
    (measured 1000 800 rendered (setDetections [apple] initial))
  = Some [scaled (500 / 1000) apple].
Proof. split; reflexivity. Qed.

(** ** [trim] and the endpoint guard *)

Lemma trimStart_nil (s : jsstring) : trimStart s = [] <-> blank s = true.
Proof.
  induction s as [|c r IH]; simpl.
  - tauto.
  - destruct (isWhiteSpace c); simpl.
    + exact IH.
    + split; discriminate.
Qed.

Lemma blank_trimStart (s : jsstring) : blank (trimStart s) = blank s.
Proof.
  induction s as [|c r IH]; simpl; [reflexivity|].
  destruct (isWhiteSpace c) eqn:E; simpl.
  - exact IH.
  - now rewrite E.
Qed.

Lemma blank_rev (s : jsstring) : blank (rev s) = blank s.
Proof.
  unfold blank. induction s as [|c r IH]; simpl; [reflexivity|].
  rewrite forallb_app, IH. simpl. rewrite andb_true_r. apply andb_comm.
Qed.

Lemma rev_nil_iff {A} (l : list A) : rev l = [] <-> l = [].
Proof.
  split; intros H.
  - rewrite <- (rev_involutive l), H. reflexivity.
  - now subst.
Qed.

(** [!backendIP.trim()] holds exactly for the blank strings. *)
Lemma trim_falsy (s : jsstring) : str_falsy (trim s) = blank s.
Proof.
  unfold trim, trimEnd.
  destruct (blank s) eqn:B.
  - apply trimStart_nil in B. rewrite B. reflexivity.
  - destruct (rev (trimStart (rev (trimStart s)))) eqn:E; [|reflexivity].
    apply rev_nil_iff, trimStart_nil in E.
    rewrite blank_rev, blank_trimStart in E. congruence.
Qed.

(** ** Upload *)

(** C8, as amended.  [sendToBackend] reports "Missing IP" and stops when
    the configured host is empty or all white space; otherwise it reports
    "No Image" and stops when the image URI is null or empty; in both cases
    nothing is sent and the state is untouched.  When both guards pass it
    sets [loading] and issues exactly one multipart POST to
    http://<host>:8000/detect, and the rest of the call, however the
    request settles, issues no further request. *)
Theorem sendToBackend_preconditions (s : State) :
  (blank (backendIP s) = true -> sendToBackend s = (s, [missingIP])) /\
  (blank (backendIP s) = false -> uri_falsy (imageUri s) = true ->
   sendToBackend s = (s, [noImage])) /\
  (blank (backendIP s) = false ->
   forall uri, imageUri s = Some uri -> uri <> [] ->
     sendToBackend s =
     (setLoading true s, [Fetch (detect_request (backendIP s) uri)])) /\
  (forall o s', fetches (snd (sendToBackend_resume o s')) = []).
Proof.
  unfold sendToBackend. rewrite trim_falsy.
  repeat split.
  - intros ->. reflexivity.
  - intros -> Hu. destruct (imageUri s) as [[|c u]|]; try reflexivity.
    discriminate Hu.
  - intros -> uri -> Hne. destruct uri as [|c u]; [contradiction|].
    reflexivity.
  - intros [| ok | dets | error] s'; reflexivity.
Qed.

Lemma sendToBackend_preconditions_witness :
  sendToBackend initial = (initial, [missingIP]) /\
  sendToBackend (setBackendIP host initial)
  = (setBackendIP host initial, [noImage]) /\
  sendToBackend (setImageUri (Some photoA) (setBackendIP host initial))
  = (setLoading true (setImageUri (Some photoA) (setBackendIP host initial)),
     [Fetch (detect_request host photoA)]).
Proof.
  split; [|split].
  - apply (proj1 (sendToBackend_preconditions initial)). reflexivity.
  - apply (proj1 (proj2 (sendToBackend_preconditions
                           (setBackendIP host initial)))); reflexivity.
  - apply (proj1 (proj2 (proj2 (sendToBackend_preconditions
             (setImageUri (Some photoA) (setBackendIP host initial)))))).
    + reflexivity.
    + reflexivity.
    + vm_compute. discriminate.
Defined.

(** C8 fails as stated: the host " " (one space) is not empty.  Without an
    image the call reports "Missing IP", not "No Image"; with an image it
    sends nothing. *)
Lemma sendToBackend_preconditions_counterexample :
  let s := setBackendIP (lit " ") initial in
  let s' := setImageUri (Some photoA) s in
  backendIP s <> [] /\ imageUri s = None /\
  sendToBackend s = (s, [missingIP]) /\
  backendIP s' <> [] /\ imageUri s' = Some photoA /\
  fetches (snd (sendToBackend s')) = [] /\
  sendToBackend s' = (s', [missingIP]).
Proof.
  repeat split; try reflexivity; vm_compute; discriminate.
Qed.

Lemma filter_id_iff {A} (f : A -> bool) (l : list A) :
  filter f l = l <-> forallb f l = true.
Proof.
  induction l as [|a l IH]; simpl; [tauto|].
  destruct (f a) eqn:E; simpl.
  - rewrite <- IH. split; intros H; [now injection H | now f_equal].
  - split; [|discriminate].
    intros H. pose proof (filter_length_le f l) as Hle.
    rewrite H in Hle. simpl in Hle. lia.
Qed.

(** C4, as amended.  A 2xx response is not normalized: the array under
    [detections] replaces the stored sequence as it is, every entry kept,
    in the order received.  What is stored is what the specification's
    [normalize] would return only when no entry is invalid. *)
Theorem response_stored_verbatim (s : State) (dets : list Detection) :
  detections (exec (sendToBackend_resume (Ok2xx dets)) s) = dets /\
  (Spec.normalize dets = detections (exec (sendToBackend_resume (Ok2xx dets)) s)
   <-> forallb Spec.valid dets = true).
Proof.
  split; [reflexivity|].
  change (detections (exec (sendToBackend_resume (Ok2xx dets)) s)) with dets.
  apply filter_id_iff.
Qed.

(** C4 fails as stated: the entry with [confidence: 1.5] is dropped by the
    specification's [normalize] and kept by the upload handler. *)
Lemma response_normalized_counterexample :
  Spec.normalize [apple; pear] = [apple] /\
  detections (exec (sendToBackend_resume (Ok2xx [apple; pear])) initial)
  = [apple; pear].
Proof. split; reflexivity. Qed.




Lemma press_while_loading (w : World) :
  loading (session w) = true -> step w PressProcess = w.
Proof.
  intros H. destruct w as [s fl out]; simpl in H.
  unfold step, handler, press_processButton; simpl.
  rewrite H, andb_false_r. simpl.
  now rewrite !app_nil_r.
Qed.

Lemma drop_nth_none {A} (n : nat) (l : list A) :
  nth_error l n = None -> drop_nth n l = l.
Proof.
  revert n. induction l as [|a l IH]; intros [|n] H; simpl in *;
    try reflexivity; try discriminate.
  now rewrite IH.
Qed.

Lemma sendToBackend_cases (s : State) :
  sendToBackend s = (s, [missingIP]) \/
  sendToBackend s = (s, [noImage]) \/
  exists r, sendToBackend s = (setLoading true s, [Fetch r]).
Proof.
  unfold sendToBackend.
  destruct (str_falsy (trim (backendIP s))); [now left|].
  destruct (imageUri s) as [[|c u]|]; [now right; left | | now right; left].
  right; right. eexists. reflexivity.
Qed.

Lemma one_upload_step (w : World) (ev : Event) :
  one_upload w -> one_upload (step w ev).
Proof.
  intros Hw. destruct w as [s fl out]. unfold one_upload in *; simpl in Hw.
  destruct ev as [text | [| | uri] | width height | | e | | n o];
    unfold step, handler; simpl; rewrite ?app_nil_r; try exact Hw.
  - (* PressProcess *)
    unfold press_processButton.
    destruct (showsPreview s && negb (loading s)) eqn:G;
      [|simpl; rewrite app_nil_r; exact Hw].
    apply andb_prop in G. destruct G as [_ G]. apply negb_true_iff in G.
    destruct Hw as [[Hl _] | [_ Hfl]]; [congruence|]. subst fl.
    destruct (sendToBackend_cases s) as [E | [E | [r E]]]; rewrite E; simpl.
    + right. now split.
    + right. now split.
    + left. split; [reflexivity | now exists r].
  - (* Settle *)
    destruct (nth_error fl n) eqn:E.
    + destruct Hw as [[_ [r0 Hfl]] | [_ Hfl]]; subst fl.
      * destruct n as [|n]; [|destruct n; discriminate E].
        right. destruct o; simpl; now split.
      * destruct n; discriminate E.
    + simpl. rewrite app_nil_r, (drop_nth_none _ _ E). exact Hw.
Qed.

Lemma one_upload_run (evs : list Event) (w : World) :
  one_upload w -> one_upload (run evs w).
Proof.
  revert w. induction evs as [|ev evs IH]; intros w Hw; simpl.
  - exact Hw.
  - apply IH, one_upload_step, Hw.
Qed.

(** C5, as amended.  On the screen, however it got to where it is, at most
    one upload is in flight; and while one is, a press on the send button
    does nothing at all: no request is sent, nothing is reported (there is
    no "already in progress" failure), the session is unchanged.  The guard
    is the button's [disabled={loading}]; [sendToBackend] itself does not
    look at [loading]. *)
Theorem press_while_uploading (evs : list Event) :
  let w := run evs world0 in
  (List.length (inflight w) <= 1)%nat /\
  (inflight w <> [] -> step w PressProcess = w).
Proof.
  intros w.
  assert (Hw : one_upload w).
  { apply one_upload_run. right. now split. }
  destruct Hw as [[Hl [r Hfl]] | [_ Hfl]]; split.
  - rewrite Hfl. simpl. lia.
  - intros _. now apply press_while_loading.
  - rewrite Hfl. simpl. lia.
  - intros H. contradiction.
Qed.

Lemma press_while_uploading_witness :
  inflight uploadingA <> [] /\
  step uploadingA PressProcess = uploadingA.
Proof.
  split; [vm_compute; discriminate|].
  apply (press_while_uploading
           [ChangeText host; Pick (Captured photoA); PressProcess]).
  vm_compute. discriminate.
Defined.

(** C5 fails as stated: with the upload of A in flight for the current
    handle, a second invocation of [sendToBackend] sends the same request
    again and reports nothing; and the press the button swallows reports
    nothing either. *)
Lemma second_send_counterexample :
  let s := session uploadingA in
  loading s = true /\
  imageUri s = Some photoA /\
  inflight uploadingA = [detect_request host photoA] /\
  sendToBackend s = (s, [Fetch (detect_request host photoA)]) /\
  outbox (step uploadingA PressProcess) = outbox uploadingA.
Proof. repeat split; reflexivity. Qed.

(** C3, as amended.  A settling upload is never compared with the current
    handle.  When the handle has been replaced since the request was
    issued, a 2xx response still replaces the stored detections with its
    own, and any other outcome leaves them as they are; the handle itself
    is not touched. *)
Theorem stale_response_applied
  (w : World) (n : nat) (r : Request) (o : FetchOutcome) :
  nth_error (inflight w) n = Some r ->
  imageUri (session w) <> Some (issued_for r) ->
  let w' := step w (Settle n o) in
  detections (session w') =
    match o with
    | Ok2xx dets => dets
    | _ => detections (session w)
    end /\
  imageUri (session w') = imageUri (session w) /\
  inflight w' = drop_nth n (inflight w).
Proof.
  intros Hn _. unfold step, handler. rewrite Hn.
  destruct o as [| ok | dets | error]; simpl;
    rewrite app_nil_r; repeat split; reflexivity.
Qed.

Lemma stale_response_applied_witness :
  let w' := step replacedByB (Settle 0 (Ok2xx [apple])) in
  detections (session w') = [apple] /\
  imageUri (session w') = imageUri (session replacedByB) /\
  inflight w' = drop_nth 0 (inflight replacedByB).
Proof.
  apply (stale_response_applied replacedByB 0 (detect_request host photoA)
           (Ok2xx [apple])).
  - reflexivity.
  - vm_compute. discriminate.
Defined.

(** C3 fails as stated: A is uploaded, B replaces it, then the response for
    A arrives.  The session ends with B as its image and A's detections,
    and the overlay view is on screen. *)
Lemma stale_response_counterexample :
  let w :=
    run [ChangeText host; Pick (Captured photoA); PressProcess;
         Pick (Captured photoB); Settle 0 (Ok2xx [apple])] world0 in
  map issued_for (inflight replacedByB) = [photoA] /\
  imageUri (session replacedByB) = Some photoB /\
  detections (session replacedByB) = [] /\
  imageUri (session w) = Some photoB /\
  detections (session w) = [apple] /\
  showsProcessed (session w) = true.
Proof. repeat split; reflexivity. Qed.

(** ** Capture *)

(** C6, as amended.  On a successful capture one and the same piece of
    [pickImage] stores the new URI and empties the detections, and asks for
    the size of the new image.  The natural size is not cleared: the
    previous image's [originalWidth] and [originalHeight] stay until the
    success callback of [Image.getSize] overwrites them, and for good when
    the error callback is the one called. *)
Theorem pickImage_captured (s : State) (uri : jsstring) :
  pickImage (Captured uri) s =
  ({| imageUri := Some uri; backendIP := backendIP s; detections := [];
      loading := loading s; originalWidth := originalWidth s;
      originalHeight := originalHeight s;
      renderedWidth := renderedWidth s |}, [GetSize uri]) /\
  (forall width height,
     let s' := exec (getSize_success width height)
                    (exec (pickImage (Captured uri)) s) in
     originalWidth s' = width /\ originalHeight s' = height) /\
  exec getSize_failure (exec (pickImage (Captured uri)) s)
  = exec (pickImage (Captured uri)) s.
Proof. repeat split. Qed.

(** C6 fails as stated: A (1000 x 800) is on screen with a detection and B
    is captured.  B is paired with A's natural size; if the detections of B
    arrive before its size is known, they are drawn with A's scale. *)
Lemma pickImage_captured_counterexample :
  let sA := measured 1000 800 box500
              (setDetections [apple] (setImageUri (Some photoA) initial)) in
  let sB := exec (pickImage (Captured photoB)) sA in
  imageUri sB = Some photoB /\
  detections sB = [] /\
  originalWidth sB = 1000 /\ originalHeight sB = 800 /\
  ~ originalWidth sB == 0 /\
  renderDetectionsOverlay (exec (sendToBackend_resume (Ok2xx [pear])) sB)
  = Some [scaled (500 / 1000) pear].
Proof.
  repeat split; try reflexivity.
  vm_compute. discriminate.
Qed.

(** ** Layout *)

(** C9, as amended.  [onLayout] stores the measured width whatever was
    stored before and issues nothing; of two calls the later one decides;
    a call repeated with the same measurements changes nothing.  The
    measured height is not kept: the rendered size this screen stores is
    its width alone, and two measurements of the same width leave the same
    session whatever their heights. *)
Theorem onLayout_overwrites (s : State) (e1 e2 : Layout.t) :
  renderedWidth (exec (onLayout e2) s) = Layout.width e2 /\
  snd (onLayout e2 s) = [] /\
  exec (onLayout e2) (exec (onLayout e1) s) = exec (onLayout e2) s /\
  exec (onLayout e2) (exec (onLayout e2) s) = exec (onLayout e2) s /\
  (Layout.width e1 = Layout.width e2 ->
   exec (onLayout e1) s = exec (onLayout e2) s).
Proof.
  repeat split. intros H. unfold exec, onLayout, upd; simpl. now rewrite H.
Qed.

Lemma onLayout_overwrites_witness :
  exec (onLayout box500) initial = exec (onLayout (Layout.mk 7 9 500 0)) initial.
Proof.
  apply (proj2 (proj2 (proj2 (proj2
           (onLayout_overwrites initial box500 (Layout.mk 7 9 500 0)))))).
  reflexivity.
Defined.

(** C9 fails as stated: the measurements 500 x 250 and 500 x 0 differ in
    their height and leave the same session, so no reading of the session
    gives back the height of the last measurement: the stored rendered
    size is not the pair that was measured. *)
Lemma onLayout_height_counterexample :
  let e1 := Layout.mk 0 0 500 250 in
  let e2 := Layout.mk 0 0 500 0 in
  ~ Layout.height e1 == Layout.height e2 /\
  exec (onLayout e1) initial = exec (onLayout e2) initial /\
  ~ exists stored : State -> Q,
      forall e s, stored (exec (onLayout e) s) == Layout.height e.
Proof.
  split; [|split].
  - vm_compute. discriminate.
  - reflexivity.
  - intros [stored H].
    pose proof (H (Layout.mk 0 0 500 250) initial) as H1.
    pose proof (H (Layout.mk 0 0 500 0) initial) as H2.
    change (exec (onLayout (Layout.mk 0 0 500 250)) initial)
      with (exec (onLayout (Layout.mk 0 0 500 0)) initial) in H1.
    rewrite H2 in H1. revert H1. vm_compute. discriminate.
Qed.

(** * Further properties of the dashboard *)

(** ** What a press on the send button can do *)

Lemma sendToBackend_shown (s : State) :
  showsPreview s = true ->
  (blank (backendIP s) = true /\ sendToBackend s = (s, [missingIP])) \/
  (blank (backendIP s) = false /\
   exists uri, imageUri s = Some uri /\ uri <> [] /\
     sendToBackend s =
     (setLoading true s, [Fetch (detect_request (backendIP s) uri)])).
Proof.
  unfold showsPreview, sendToBackend. rewrite trim_falsy. intros H.
  apply andb_prop in H. destruct H as [H _].
  destruct (blank (backendIP s)); [left; now split|right].
  split; [reflexivity|].
  destruct (imageUri s) as [[|c u]|]; try discriminate H.
  exists (c :: u). repeat split. discriminate.
Qed.

(** X1.  A press on the send button does one of three things.  When the
    button is not on screen or is disabled it does nothing.  Otherwise,
    with a blank host, it reports "Missing IP"; with any other host it
    starts the upload of the current image.  The "No Image" report of
    [sendToBackend] cannot be reached from the button, which is drawn only
    when there is an image. *)
Theorem press_outcomes (s : State) :
  (showsPreview s && negb (loading s) = false ->
   press_processButton s = (s, [])) /\
  (showsPreview s && negb (loading s) = true -> blank (backendIP s) = true ->
   press_processButton s = (s, [missingIP])) /\
  (showsPreview s && negb (loading s) = true -> blank (backendIP s) = false ->
   exists uri, imageUri s = Some uri /\ uri <> [] /\
     press_processButton s =
     (setLoading true s, [Fetch (detect_request (backendIP s) uri)])) /\
  ~ In noImage (snd (press_processButton s)).
Proof.
  unfold press_processButton.
  destruct (showsPreview s && negb (loading s)) eqn:G.
  - apply andb_prop in G. destruct G as [G _].
    destruct (sendToBackend_shown s G) as [[B E] | [B (uri & Hu & Hne & E)]];
      rewrite E, B; repeat split; try discriminate.
    + intros [H | []]. discriminate H.
    + exists uri. now repeat split.
    + intros [H | []]. discriminate H.
  - repeat split; try discriminate. intros [].
Qed.

Lemma press_outcomes_witness :
  press_processButton initial = (initial, []) /\
  press_processButton (setImageUri (Some photoA) initial)
  = (setImageUri (Some photoA) initial, [missingIP]) /\
  exists uri,
    imageUri (session replacedByB) = Some uri /\ uri <> [] /\
    press_processButton (setLoading false (session replacedByB)) =
    (setLoading true (setLoading false (session replacedByB)),
     [Fetch (detect_request host uri)]).
Proof.
  split; [|split].
  - apply (proj1 (press_outcomes initial)). reflexivity.
  - apply (proj1 (proj2 (press_outcomes (setImageUri (Some photoA) initial))));
      reflexivity.
  - apply (proj1 (proj2 (proj2
             (press_outcomes (setLoading false (session replacedByB))))));
      reflexivity.
Defined.

(** ** Invariants of the screen *)

Lemma fetches_app (a b : list Effect) :
  fetches (a ++ b) = fetches a ++ fetches b.
Proof.
  induction a as [|e a IH]; simpl; [reflexivity|].
  destruct e; simpl; now rewrite ?IH.
Qed.

Lemma step_outbox (w : World) (ev : Event) :
  outbox (step w ev) = outbox w ++ snd (handler ev w (session w)).
Proof. unfold step. now destruct (handler ev w (session w)). Qed.

Lemma step_session (w : World) (ev : Event) :
  session (step w ev) = exec (handler ev w) (session w).
Proof. unfold step, exec. now destruct (handler ev w (session w)). Qed.

(** Only a press on an enabled send button issues a request, and then one
    request, for the current host and image. *)
Lemma handler_fetches (w : World) (ev : Event) :
  fetches (snd (handler ev w (session w))) = [] \/
  (ev = PressProcess /\
   blank (backendIP (session w)) = false /\
   exists uri, imageUri (session w) = Some uri /\ uri <> [] /\
     fetches (snd (handler ev w (session w))) =
     [detect_request (backendIP (session w)) uri]).
Proof.
  destruct ev as [text | [| | uri] | width height | | e | | n o];
    try (left; reflexivity).
  - simpl. destruct (showsPreview (session w) && negb (loading (session w)))
      eqn:G.
    + unfold press_processButton. rewrite G.
      apply andb_prop in G. destruct G as [G _].
      destruct (sendToBackend_shown _ G) as [[B E] | [B (uri & Hu & Hne & E)]];
        rewrite E; simpl.
      * now left.
      * right. split; [reflexivity|]. split; [exact B|].
        exists uri. now repeat split.
    + left. unfold press_processButton. now rewrite G.
  - left. simpl. destruct (nth_error (inflight w) n); [|reflexivity].
    now destruct o.
Qed.

(** X2.  However the screen got to where it is, [loading] is true exactly
    while an upload is in flight: the spinner never stays on without a
    pending request and never goes off while one is pending. *)
Theorem loading_iff_inflight (evs : list Event) :
  let w := run evs world0 in
  loading (session w) = true <-> inflight w <> [].
Proof.
  intros w.
  assert (Hw : one_upload w).
  { apply one_upload_run. right. now split. }
  destruct Hw as [[Hl [r Hfl]] | [Hl Hfl]]; rewrite Hl, Hfl; split;
    congruence.
Qed.

Lemma run_app (evs evs' : list Event) (w : World) :
  run (evs ++ evs') w = run evs' (run evs w).
Proof. apply fold_left_app. Qed.

Lemma well_formed_step (w : World) (ev : Event) :
  Forall well_formed (fetches (outbox w)) ->
  Forall well_formed (fetches (outbox (step w ev))).
Proof.
  intros H. rewrite step_outbox, fetches_app. apply Forall_app. split; [exact H|].
  destruct (handler_fetches w ev) as [E | (_ & B & uri & _ & Hne & E)];
    rewrite E; constructor; [|constructor].
  exists (backendIP (session w)), uri. now repeat split.
Qed.

(** X3.  Every request the screen has ever issued is a POST of the form
    built by [detect_request], to a host that is not blank, with a file URI
    that is not empty. *)
Theorem requests_well_formed (evs : list Event) :
  Forall well_formed (fetches (outbox (run evs world0))).
Proof.
  induction evs as [|ev evs IH] using rev_ind.
  - constructor.
  - rewrite run_app. simpl. now apply well_formed_step.
Qed.

Lemma presses_app (evs evs' : list Event) :
  presses (evs ++ evs') = (presses evs + presses evs')%nat.
Proof. unfold presses. now rewrite filter_app, length_app. Qed.

(** X4.  The screen sends nothing on its own: the number of requests issued
    is at most the number of presses on the send button.  In particular
    typing, capturing, layout passes and settling uploads never send, and a
    failed upload is not retried. *)
Theorem requests_need_presses (evs : list Event) :
  (List.length (fetches (outbox (run evs world0))) <= presses evs)%nat.
Proof.
  induction evs as [|ev evs IH] using rev_ind.
  - simpl. lia.
  - rewrite run_app, presses_app. simpl.
    rewrite step_outbox, fetches_app, length_app.
    destruct (handler_fetches (run evs world0) ev)
      as [E | (-> & _ & uri & _ & _ & E)]; rewrite E; simpl.
    + lia.
    + unfold presses at 2. simpl. lia.
Qed.

Lemma sendToBackend_frame (s : State) :
  let s' := exec sendToBackend s in
  imageUri s' = imageUri s /\ detections s' = detections s /\
  originalWidth s' = originalWidth s /\ originalHeight s' = originalHeight s /\
  renderedWidth s' = renderedWidth s /\ backendIP s' = backendIP s.
Proof.
  unfold exec.
  destruct (sendToBackend_cases s) as [E | [E | [r E]]]; rewrite E;
    repeat split.
Qed.

Lemma press_frame (s : State) :
  let s' := exec press_processButton s in
  imageUri s' = imageUri s /\ detections s' = detections s /\
  originalWidth s' = originalWidth s /\ originalHeight s' = originalHeight s /\
  renderedWidth s' = renderedWidth s /\ backendIP s' = backendIP s.
Proof.
  unfold exec, press_processButton.
  destruct (showsPreview s && negb (loading s)).
  - apply sendToBackend_frame.
  - repeat split.
Qed.

(** X5.  Each part of the session has its own writers.  The detections
    change only when an image is captured or a 2xx response settles; the
    image URI only when an image is captured; the natural size only when
    [Image.getSize] succeeds; the rendered width only on a layout pass.
    Every other event leaves them as they were. *)
Theorem session_frame (w : World) (ev : Event) :
  (writes_detections ev = false ->
   detections (session (step w ev)) = detections (session w)) /\
  (writes_imageUri ev = false ->
   imageUri (session (step w ev)) = imageUri (session w)) /\
  (writes_originalSize ev = false ->
   originalWidth (session (step w ev)) = originalWidth (session w) /\
   originalHeight (session (step w ev)) = originalHeight (session w)) /\
  (writes_renderedWidth ev = false ->
   renderedWidth (session (step w ev)) = renderedWidth (session w)).
Proof.
  rewrite step_session.
  destruct ev as [text | [| | uri] | width height | | e | | n o]; simpl;
    try (repeat split; solve [discriminate | intros; reflexivity]).
  - (* PressProcess *)
    destruct (press_frame (session w)) as (Hu & Hd & Hw & Hh & Hr & _).
    repeat split; intros; assumption.
  - (* Settle *)
    destruct (nth_error (inflight w) n); [destruct o|];
      repeat split; solve [discriminate | intros; reflexivity].
Qed.

Lemma session_frame_witness :
  detections (session (step uploadingA (Settle 0 NetworkFailure)))
  = detections (session uploadingA) /\
  imageUri (session (step uploadingA PressProcess))
  = imageUri (session uploadingA) /\
  originalWidth (session (step uploadingA SizeFailed))
  = originalWidth (session uploadingA) /\
  renderedWidth (session (step uploadingA (ChangeText photoB)))
  = renderedWidth (session uploadingA).
Proof.
  split; [|split; [|split]].
  - apply (proj1 (session_frame uploadingA (Settle 0 NetworkFailure))).
    reflexivity.
  - apply (proj1 (proj2 (session_frame uploadingA PressProcess))).
    reflexivity.
  - apply (proj1 (proj2 (proj2 (session_frame uploadingA SizeFailed)))).
    reflexivity.
  - apply (proj2 (proj2 (proj2 (session_frame uploadingA (ChangeText photoB))))).
    reflexivity.
Defined.

Lemma image_stays_set_step (w : World) (ev : Event) :
  imageUri (session w) <> None -> imageUri (session (step w ev)) <> None.
Proof.
  intros H.
  destruct (writes_imageUri ev) eqn:E.
  - destruct ev as [| [| | uri] | | | | |]; try discriminate E.
    rewrite step_session. discriminate.
  - now rewrite (proj1 (proj2 (session_frame w ev)) E).
Qed.

(** X6.  This screen never goes back to having no image: once an image URI
    is stored, no sequence of events makes [imageUri] null again. *)
Theorem image_stays_set (evs : list Event) (w : World) :
  imageUri (session w) <> None -> imageUri (session (run evs w)) <> None.
Proof.
  revert w. induction evs as [|ev evs IH]; intros w H; simpl.
  - exact H.
  - apply IH, image_stays_set_step, H.
Qed.

Lemma image_stays_set_witness :
  imageUri (session (run [Settle 0 (NotOk None); SizeFailed; PressProcess]
                         uploadingA)) <> None.
Proof.
  apply (image_stays_set [Settle 0 (NotOk None); SizeFailed; PressProcess]
           uploadingA).
  vm_compute. discriminate.
Defined.

Lemma no_image_step (w : World) (ev : Event) :
  (imageUri (session w) = None ->
   inflight w = [] /\ detections (session w) = []) ->
  imageUri (session (step w ev)) = None ->
  inflight (step w ev) = [] /\ detections (session (step w ev)) = [].
Proof.
  intros Hw Hn.
  assert (H0 : imageUri (session w) = None).
  { destruct (imageUri (session w)) eqn:E; [|reflexivity].
    exfalso. apply (image_stays_set_step w ev); [congruence | exact Hn]. }
  destruct (Hw H0) as [Hfl Hd]. clear Hw Hn.
  destruct w as [s fl out]; simpl in *. subst fl.
  destruct ev as [text | [| | uri] | width height | | e | | n o];
    unfold step, handler; simpl;
    try (split; [reflexivity | first [exact Hd | reflexivity]]).
  - (* PressProcess: the button is not on screen *)
    unfold press_processButton, showsPreview. rewrite H0. simpl.
    split; [reflexivity | exact Hd].
  - (* Settle: nothing is in flight *)
    destruct n; simpl; split; try reflexivity; exact Hd.
Qed.

(** X7.  Uploads and detections never exist without an image: in every
    state the screen can reach, if an upload is in flight or the detections
    are not empty, an image URI is stored. *)
Theorem results_have_image (evs : list Event) :
  let w := run evs world0 in
  inflight w <> [] \/ detections (session w) <> [] ->
  imageUri (session w) <> None.
Proof.
  intros w.
  assert (Hw : imageUri (session w) = None ->
               inflight w = [] /\ detections (session w) = []).
  { subst w. induction evs as [|ev evs IH] using rev_ind.
    - now split.
    - rewrite run_app. simpl. apply no_image_step, IH. }
  intros [H | H] E; destruct (Hw E); contradiction.
Qed.

Lemma results_have_image_witness :
  imageUri (session uploadingA) <> None.
Proof.
  apply (results_have_image
           [ChangeText host; Pick (Captured photoA); PressProcess]).
  left. vm_compute. discriminate.
Defined.




(** ** Geometry of the overlay *)

Lemma overlay_inv (s : State) (boxes : list ScreenBox.t) :
  renderDetectionsOverlay s = Some boxes ->
  ~ renderedWidth s == 0 /\ ~ originalWidth s == 0 /\
  boxes = map (scaled (renderedWidth s / originalWidth s)) (detections s).
Proof.
  intros H.
  destruct (Qeq_dec (renderedWidth s) 0) as [E | Hr];
    [rewrite overlay_none in H; [discriminate | now left]|].
  destruct (Qeq_dec (originalWidth s) 0) as [E | Ho];
    [rewrite overlay_none in H; [discriminate | now right]|].
  rewrite (overlay_some s Hr Ho) in H. injection H as <-. now repeat split.
Qed.

Lemma Forall2_map_r {A B} (P : A -> B -> Prop) (f : A -> B) (l : list A) :
  (forall a, In a l -> P a (f a)) -> Forall2 P l (map f l).
Proof.
  induction l as [|a l IH]; intros H; simpl; constructor.
  - apply H. now left.
  - apply IH. intros b Hb. apply H. now right.
Qed.

(** X9.  When the overlay is drawn it has exactly one box per detection,
    in the order of the detections: the box at each position is the one
    computed from the detection at that position, and nothing is drawn
    beyond the last detection. *)
Theorem overlay_one_box_per_detection
  (s : State) (boxes : list ScreenBox.t) :
  renderDetectionsOverlay s = Some boxes ->
  List.length boxes = List.length (detections s) /\
  forall i,
    nth_error boxes i =
    option_map (scaled (renderedWidth s / originalWidth s))
               (nth_error (detections s) i).
Proof.
  intros H. apply overlay_inv in H. destruct H as (_ & _ & ->).
  split.
  - apply length_map.
  - intros i. apply nth_error_map.
Qed.

Lemma overlay_one_box_per_detection_witness :
  let s := measured 1000 800 box500 (setDetections [apple; pear] initial) in
  List.length [scaled (500 / 1000) apple; scaled (500 / 1000) pear]
  = List.length (detections s) /\
  forall i,
    nth_error [scaled (500 / 1000) apple; scaled (500 / 1000) pear] i =
    option_map (scaled (renderedWidth s / originalWidth s))
               (nth_error (detections s) i).
Proof.
  apply (overlay_one_box_per_detection
           (measured 1000 800 box500 (setDetections [apple; pear] initial))).
  reflexivity.
Defined.




(** X12.  At natural width the overlay is the identity: whenever the
    overlay is drawn and the rendered width equals the natural width,
    every box has the coordinates of its bbox unchanged (left = x1,
    top = y1, width = x2 - x1, height = y2 - y1). *)
Theorem overlay_at_natural_width (s : State) (boxes : list ScreenBox.t) :
  renderDetectionsOverlay s = Some boxes ->
  renderedWidth s == originalWidth s ->
  Forall2
    (fun det b =>
       ScreenBox.left b == x1 (bbox det) /\
       ScreenBox.top b == y1 (bbox det) /\
       ScreenBox.width b == x2 (bbox det) - x1 (bbox det) /\
       ScreenBox.height b == y2 (bbox det) - y1 (bbox det))
    (detections s) boxes.
Proof.
  intros H E. apply overlay_inv in H. destruct H as (_ & Ho & ->).
  apply Forall2_map_r. intros det _. unfold scaled; simpl.
  rewrite E. repeat split; field; exact Ho.
Qed.

Lemma overlay_at_natural_width_witness :
  let s := measured 1000 800 (Layout.mk 0 0 1000 250)
             (setDetections [apple] initial) in
  Forall2
    (fun det b =>
       ScreenBox.left b == x1 (bbox det) /\
       ScreenBox.top b == y1 (bbox det) /\
       ScreenBox.width b == x2 (bbox det) - x1 (bbox det) /\
       ScreenBox.height b == y2 (bbox det) - y1 (bbox det))
    (detections s) [scaled (1000 / 1000) apple].
Proof.
  apply (overlay_at_natural_width
           (measured 1000 800 (Layout.mk 0 0 1000 250)
              (setDetections [apple] initial)));
    reflexivity.
Defined.

(** * Properties of the typed screen *)

Ltac colour_case H :=
  split; intros H;
  first [ reflexivity
        | discriminate H
        | exfalso; vm_compute in H; discriminate H ].

(** X13.  The colour of a box depends on its index modulo 6 and on nothing
    else of the index: for one opacity, two indices get the same colour
    exactly when they are equal modulo 6.  So the six palette entries come
    round in order, and no two of six consecutive boxes share a colour. *)
Theorem colour_by_index
  (numberToString : Q -> jsstring) (i j : nat) (opacity : Q) :
  TypedDashboard.getBoundingBoxColor numberToString i opacity =
  TypedDashboard.getBoundingBoxColor numberToString j opacity
  <-> (i mod 6 = j mod 6)%nat.
Proof.
  unfold TypedDashboard.getBoundingBoxColor.
  change (List.length TypedDashboard.colors) with 6%nat.
  assert (Hi : (i mod 6 < 6)%nat) by (apply Nat.mod_upper_bound; lia).
  assert (Hj : (j mod 6 < 6)%nat) by (apply Nat.mod_upper_bound; lia).
  set (a := (i mod 6)%nat) in *. set (b := (j mod 6)%nat) in *.
  clearbody a b.
  destruct (num_lt opacity 1);
    do 6 (destruct a as [|a];
          [do 6 (destruct b as [|b]; [colour_case H|]); lia|]);
    lia.
Qed.

(** X14.  The percentage shown for a detection does not decrease when
    the confidence grows, and for a confidence in [0,1] it lies between 0
    and 100. *)
Theorem confidencePercent_range (det det' : Detection) :
  (confidence det <= confidence det' ->
   (TypedDashboard.confidencePercent det <= TypedDashboard.confidencePercent det')%Z) /\
  (0 <= confidence det -> confidence det <= 1 ->
   (0 <= TypedDashboard.confidencePercent det <= 100)%Z).
Proof.
  unfold TypedDashboard.confidencePercent, Math_round.
  split.
  - intros H. apply Qfloor_resp_le.
    apply Qplus_le_l. apply Qmult_le_compat_r; [exact H | discriminate].
  - intros H0 H1. split.
    + change 0%Z with (Qfloor 0). apply Qfloor_resp_le.
      apply Qle_trans with (confidence det * 100).
      * apply Qmult_le_0_compat; [exact H0 | discriminate].
      * rewrite <- (Qplus_0_r (confidence det * 100)) at 1.
        apply Qplus_le_r. discriminate.
    + change 100%Z with (Qfloor (1 * 100 + (1 # 2))). apply Qfloor_resp_le.
      apply Qplus_le_l. apply Qmult_le_compat_r; [exact H1 | discriminate].
Qed.

Lemma confidencePercent_range_witness :
  (TypedDashboard.confidencePercent apple
   <= TypedDashboard.confidencePercent pear)%Z /\
  (0 <= TypedDashboard.confidencePercent apple <= 100)%Z.
Proof.
  split.
  - apply (proj1 (confidencePercent_range apple pear)).
    vm_compute. discriminate.
  - apply (proj2 (confidencePercent_range apple pear));
      vm_compute; discriminate.
Defined.








(** * Properties of the authentication screens *)

Lemma str_falsy_true (s : jsstring) : str_falsy s = true <-> s = [].
Proof. destruct s; simpl; split; congruence. Qed.

Lemma str_falsy_false (s : jsstring) : str_falsy s = false <-> s <> [].
Proof. destruct s; simpl; split; congruence. Qed.

Lemma str_eqb_true (a b : jsstring) : str_eqb a b = true <-> a = b.
Proof.
  unfold str_eqb. destruct (list_eq_dec N.eq_dec a b); split; congruence.
Qed.

Lemma str_or_nonempty (a : option jsstring) (b : jsstring) :
  b <> [] -> str_or a b <> [].
Proof.
  intros Hb. destruct a as [[|c s]|]; simpl; try exact Hb. discriminate.
Qed.

(** X18.  After the mount effect has found a user, the welcome name is
    never empty: it is the profile name when that is a non-empty string,
    otherwise the e-mail address when that is one, otherwise "User"; and
    the user counts as logged in. *)
Theorem welcome_name (user : Auth.User) (a : Auth.State) :
  let a' := Auth.onMount (Some user) a in
  Auth.displayName a' <> [] /\
  Auth.isLoggedIn a' = true /\
  (forall n, Auth.user_displayName user = Some n -> n <> [] ->
             Auth.displayName a' = n) /\
  (uri_falsy (Auth.user_displayName user) = true ->
   forall e, Auth.user_email user = Some e -> e <> [] ->
             Auth.displayName a' = e) /\
  (uri_falsy (Auth.user_displayName user) = true ->
   uri_falsy (Auth.user_email user) = true ->
   Auth.displayName a' = lit "User").
Proof.
  destruct user as [dn em]. simpl. unfold or_else.
  repeat split.
  - apply str_or_nonempty. discriminate.
  - intros n -> Hn. destruct n; [contradiction | reflexivity].
  - intros -> e -> He. destruct e; [contradiction | reflexivity].
  - intros -> Hem. destruct em as [[|c e]|]; try reflexivity.
    discriminate Hem.
Qed.

Lemma welcome_name_witness :
  Auth.displayName
    (Auth.onMount (Some (Auth.mkUser (Some []) (Some photoA))) Auth.initial)
  = photoA /\
  Auth.displayName
    (Auth.onMount (Some (Auth.mkUser None (Some []))) Auth.initial)
  = lit "User".
Proof.
  split.
  - apply (proj1 (proj2 (proj2 (proj2
             (welcome_name (Auth.mkUser (Some []) (Some photoA))
                           Auth.initial))))).
    + reflexivity.
    + reflexivity.
    + vm_compute. discriminate.
  - apply (proj2 (proj2 (proj2 (proj2
             (welcome_name (Auth.mkUser None (Some [])) Auth.initial)))));
      reflexivity.
Defined.

Lemma login_errorMessage_nonempty (e : FirebaseError) :
  Login.errorMessage e <> [].
Proof.
  unfold Login.errorMessage.
  destruct (code_is e "auth/invalid-email"); [discriminate|].
  destruct (code_is e "auth/user-not-found"); [discriminate|].
  destruct (code_is e "auth/wrong-password"); [discriminate|].
  apply str_or_nonempty. discriminate.
Qed.

(** X19.  [Login] asks Firebase to sign in only with a non-empty e-mail
    and a non-empty password, and then with exactly the two typed values;
    otherwise it shows the "Please fill in all fields." toast and changes
    nothing.  When the attempt settles the button is enabled again; the
    dashboard is opened exactly when the sign-in resolved; and a rejected
    sign-in shows one error toast whose message is never empty. *)
Theorem login_outcomes (s : Login.State) :
  (Login.email s = [] \/ Login.password s = [] ->
   Login.handleLogin s =
   (s, [toast "error" "Login Error" "Please fill in all fields." 3000])) /\
  (Login.email s <> [] -> Login.password s <> [] ->
   Login.handleLogin s =
   (Login.setIsLoading true s, [SignIn (Login.email s) (Login.password s)])) /\
  (forall r,
     Login.isLoading (fst (Login.handleLogin_resume r s)) = false /\
     (In (RouterReplace (lit "/(dashboard)"))
         (snd (Login.handleLogin_resume r s)) <-> r = None)) /\
  (forall e, exists t,
     snd (Login.handleLogin_resume (Some e) s) = [ShowToast t] /\
     text2 t <> []).
Proof.
  unfold Login.handleLogin. repeat split.
  - intros [H | H]; rewrite H; simpl; [|rewrite orb_true_r]; reflexivity.
  - intros He Hp. apply str_falsy_false in He. apply str_falsy_false in Hp.
    now rewrite He, Hp.
  - now destruct r.
  - destruct r as [e|]; simpl; [|reflexivity].
    intros [H | []]. discriminate H.
  - intros ->. simpl. now left.
  - intros e. eexists. split; [reflexivity|]. simpl.
    apply login_errorMessage_nonempty.
Qed.

Lemma login_outcomes_witness :
  Login.handleLogin (Login.mkState photoA [] false false) =
  (Login.mkState photoA [] false false,
   [toast "error" "Login Error" "Please fill in all fields." 3000]) /\
  Login.handleLogin (Login.mkState photoA host false false) =
  (Login.mkState photoA host false true, [SignIn photoA host]).
Proof.
  split.
  - apply (proj1 (login_outcomes (Login.mkState photoA [] false false))).
    right. reflexivity.
  - apply (proj1 (proj2 (login_outcomes
                           (Login.mkState photoA host false false))));
      vm_compute; discriminate.
Defined.

(** X20.  [Signup] asks Firebase for an account exactly when the name and
    the e-mail are not empty and the two passwords are equal and at least
    6 code units long; the request carries the typed e-mail and password,
    the error banner is cleared and the button disabled.  In every other
    case nothing is sent, [isLoading] is not touched and the error is set
    to a non-empty text, so the banner is shown. *)
Theorem signup_validation (s : Signup.State) :
  let ok :=
    Signup.name s <> [] /\ Signup.email s <> [] /\
    Signup.password s = Signup.confirmPassword s /\
    (6 <= List.length (Signup.password s))%nat in
  (ok ->
   Signup.handleSignup s =
   (Signup.setIsLoading true (Signup.setError [] s),
    [CreateUser (Signup.email s) (Signup.password s)])) /\
  (~ ok ->
   exists text, text <> [] /\
     Signup.handleSignup s = (Signup.setError text s, [])).
Proof.
  unfold Signup.handleSignup. split.
  - intros (Hn & He & Hp & Hl).
    assert (Hpw : Signup.password s <> []).
    { intros E. rewrite E in Hl. simpl in Hl. lia. }
    assert (Hc : Signup.confirmPassword s <> []) by now rewrite <- Hp.
    apply str_falsy_false in Hn, He, Hpw, Hc. rewrite Hn, He, Hpw, Hc.
    apply str_eqb_true in Hp. rewrite Hp.
    apply Nat.ltb_ge in Hl. now rewrite Hl.
  - intros Hok.
    destruct (str_falsy (Signup.name s) || str_falsy (Signup.email s) ||
              str_falsy (Signup.password s) ||
              str_falsy (Signup.confirmPassword s)) eqn:E1.
    { eexists. split; [|reflexivity]. discriminate. }
    destruct (str_eqb (Signup.password s) (Signup.confirmPassword s)) eqn:E2;
      simpl.
    2:{ eexists. split; [|reflexivity]. discriminate. }
    destruct (List.length (Signup.password s) <? 6)%nat eqn:E3.
    { eexists. split; [|reflexivity]. discriminate. }
    exfalso. apply Hok.
    apply orb_false_elim in E1. destruct E1 as [E1 _].
    apply orb_false_elim in E1. destruct E1 as [E1 _].
    apply orb_false_elim in E1. destruct E1 as [En Ee].
    apply str_falsy_false in En, Ee. apply str_eqb_true in E2.
    apply Nat.ltb_ge in E3. now repeat split.
Qed.

(** A filled form with two different passwords. *)
Lemma signup_validation_witness :
  Signup.handleSignup
    (Signup.mkState host photoA photoA photoA false false false []) =
  (Signup.mkState host photoA photoA photoA false false true [],
   [CreateUser photoA photoA]) /\
  exists text, text <> [] /\
    Signup.handleSignup
      (Signup.mkState host photoA photoA photoB false false false []) =
    (Signup.mkState host photoA photoA photoB false false false text, []).
Proof.
  split.
  - apply (proj1 (signup_validation
                    (Signup.mkState host photoA photoA photoA
                                    false false false []))).
    repeat split; vm_compute; (discriminate || reflexivity || lia).
  - apply (proj2 (signup_validation
                    (Signup.mkState host photoA photoA photoB
                                    false false false []))).
    intros (_ & _ & H & _). vm_compute in H. discriminate H.
Defined.

Lemma signup_errorMessage_nonempty (e : FirebaseError) :
  Signup.errorMessage e <> [].
Proof.
  unfold Signup.errorMessage.
  destruct (code_is e "auth/email-already-in-use"); [discriminate|].
  destruct (code_is e "auth/invalid-email"); [discriminate|].
  destruct (code_is e "auth/weak-password"); [discriminate|].
  apply str_or_nonempty. discriminate.
Qed.

(** X21.  However a sign-up attempt ends, the button is enabled again.
    When all three Firebase calls resolve, the success toast is shown, the
    return to the login screen is scheduled 4000 ms later and the error is
    left as it is.  When any of them is rejected, the error is set to a
    non-empty text, no toast is shown and no navigation is scheduled. *)
Theorem signup_outcomes
  (name0 : jsstring) (o : Signup.TryOutcome) (s : Signup.State) :
  let s' := fst (Signup.handleSignup_resume name0 o s) in
  let effs := snd (Signup.handleSignup_resume name0 o s) in
  Signup.isLoading s' = false /\
  (o = Signup.AllResolved ->
   Signup.error s' = Signup.error s /\
   In (ReplaceAfter 4000 (lit "/")) effs /\
   In (toast "success" "Email Sent!"
             "Please check your email for verification." 4000) effs) /\
  (o <> Signup.AllResolved ->
   Signup.error s' <> [] /\
   (forall ms href, ~ In (ReplaceAfter ms href) effs) /\
   (forall t, ~ In (ShowToast t) effs)).
Proof.
  destruct o as [e | e | e |]; simpl; repeat split;
    try (intros; apply signup_errorMessage_nonempty);
    try discriminate; try tauto;
    try (intros; intros H'; repeat (destruct H' as [H' | H']; try discriminate H');
         exact H').
  all: intros H; now contradiction H.
Qed.

Lemma signup_outcomes_witness :
  let s := Signup.mkState host photoA photoA photoA false false true [] in
  Signup.error (fst (Signup.handleSignup_resume host
                       (Signup.CreateRejected (mkError None None)) s)) <> [] /\
  In (ReplaceAfter 4000 (lit "/"))
     (snd (Signup.handleSignup_resume host Signup.AllResolved s)).
Proof.
  split.
  - apply (proj2 (proj2 (signup_outcomes host
             (Signup.CreateRejected (mkError None None))
             (Signup.mkState host photoA photoA photoA false false true [])))).
    discriminate.
  - apply (proj1 (proj2 (signup_outcomes host Signup.AllResolved
             (Signup.mkState host photoA photoA photoA false false true [])))).
    reflexivity.
Defined.

(** * One upload from press to response *)

(** X22.  Starting with the send button on screen and enabled, a host that
    is not blank and nothing in flight, a press followed by the settling of
    the upload sends exactly one request, for the current host and image,
    and ends with nothing in flight and [loading] false.  A 2xx response
    leaves its detections stored; any other outcome leaves the detections
    empty and the send button on screen and enabled, so the user can press
    again. *)
Theorem upload_round_trip (w : World) (o : FetchOutcome) :
  inflight w = [] ->
  showsPreview (session w) = true ->
  loading (session w) = false ->
  blank (backendIP (session w)) = false ->
  let w' := run [PressProcess; Settle 0 o] w in
  exists uri,
    imageUri (session w) = Some uri /\
    fetches (outbox w') =
      fetches (outbox w) ++ [detect_request (backendIP (session w)) uri] /\
    inflight w' = [] /\
    loading (session w') = false /\
    imageUri (session w') = Some uri /\
    detections (session w') =
      match o with Ok2xx dets => dets | _ => [] end /\
    (failed o = true ->
     showsPreview (session w') && negb (loading (session w')) = true).
Proof.
  intros Hfl Hshow Hload Hblank.
  destruct (sendToBackend_shown _ Hshow) as [[B _] | [_ (uri & Hu & Hne & E)]];
    [congruence|].
  assert (Hd : detections (session w) = []).
  { unfold showsPreview in Hshow. apply andb_prop in Hshow.
    destruct Hshow as [_ Hlen]. apply Nat.eqb_eq in Hlen.
    now destruct (detections (session w)). }
  assert (Hurif : uri_falsy (imageUri (session w)) = false).
  { rewrite Hu. simpl. now apply str_falsy_false. }
  exists uri. destruct w as [s fl out]; simpl in *. subst fl.
  assert (H1 : step {| session := s; inflight := []; outbox := out |}
                    PressProcess =
               {| session := setLoading true s;
                  inflight := [detect_request (backendIP s) uri];
                  outbox := out ++ [Fetch (detect_request (backendIP s) uri)] |}).
  { unfold step, handler, press_processButton; simpl.
    rewrite Hshow, Hload; simpl. now rewrite E. }
  unfold run; simpl fold_left. rewrite H1. clear H1 E.
  unfold step, handler; simpl.
  destruct o as [| ok | dets | error]; simpl;
    rewrite !fetches_app; simpl; rewrite ?app_nil_r;
    repeat split; try assumption; try discriminate;
    intros _; unfold showsPreview; simpl; rewrite Hurif, Hd; reflexivity.
Qed.

Lemma upload_round_trip_witness :
  let w := run [ChangeText host; Pick (Captured photoA)] world0 in
  let w' := run [PressProcess; Settle 0 (Ok2xx [apple])] w in
  exists uri,
    imageUri (session w) = Some uri /\
    fetches (outbox w') =
      fetches (outbox w) ++ [detect_request (backendIP (session w)) uri] /\
    inflight w' = [] /\
    loading (session w') = false /\
    imageUri (session w') = Some uri /\
    detections (session w') = [apple] /\
    (failed (Ok2xx [apple]) = true ->
     showsPreview (session w') && negb (loading (session w')) = true).
Proof.
  apply (upload_round_trip
           (run [ChangeText host; Pick (Captured photoA)] world0)
           (Ok2xx [apple])); reflexivity.
Defined.
